(** * James Lee Builders API: the handlers of [main.py]

    A shallow embedding of the four route handlers of [main.py]
    ([read_root], [submit_quote], [get_portfolio], [test_database]) and the
    properties of them that the specification states.

    Python strings are sequences of Unicode code points, and the source
    slices them by code point ([str(e)[:50]]), so a string is a [list N]
    here.  The handlers talk to things [main.py] does not define: the
    process environment, the [database] module, [smtplib], the builtin
    [int].  These are gathered in a record [World]; every call to a
    collaborator is logged in a trace, so that "no send attempt is made" is
    a statement about the trace. *)

From Stdlib Require Import ZArith NArith List Ascii String Bool Lia.
From stdpp Require Import base option list gmap.

Open Scope list_scope.

(** ** Strings *)

Abbreviation pystr := (list N).

(** An ASCII literal of the source, character by character. *)
Definition str (s : string) : pystr :=
  map N_of_ascii (list_ascii_of_string s).

(** The characters of the source outside ASCII. *)
Definition en_dash : pystr := [0x2013%N].          (* U+2013 *)
Definition check_mark : pystr := [0x2705%N].       (* U+2705 *)
Definition cross_mark : pystr := [0x274C%N].       (* U+274C *)
Definition warning_sign : pystr := [0x26A0%N; 0xFE0F%N]. (* U+26A0 U+FE0F *)
Definition nl : pystr := [10%N].                   (* "\n" *)

(** [str.lower()] on the ASCII range. *)
Definition lower_char (c : N) : N :=
  if ((65 <=? c) && (c <=? 90))%N then (c + 32)%N else c.
Definition lower (s : pystr) : pystr := map lower_char s.

(** [sub in s] *)
Fixpoint is_prefix (sub s : pystr) : bool :=
  match sub, s with
  | [], _ => true
  | a :: sub', b :: s' => (a =? b)%N && is_prefix sub' s'
  | _ :: _, [] => false
  end.
Fixpoint contains (sub s : pystr) : bool :=
  is_prefix sub s ||
  match s with
  | [] => false
  | _ :: s' => contains sub s'
  end.

(** Truth value of [os.getenv(k)]: [None] and the empty string are false. *)
Definition truthy (v : option pystr) : bool :=
  match v with
  | Some (_ :: _) => true
  | _ => false
  end.

(** ** Exceptions

    The values that a failing call raises and [except Exception] catches:
    instances of [Exception].  ([KeyboardInterrupt] and [SystemExit] are
    not; they tell the interpreter to stop and are no outcome of a call to
    a collaborator, so they have no place here.)  The class matters in one
    place only, [except ImportError] in [test_database];
    [ModuleNotFoundError] is a subclass of [ImportError]. *)

Inductive exc_class :=
| ImportError
| ModuleNotFoundError
| ValueError
| OtherException (cls : pystr).

Record exn := Exn { exn_class : exc_class; exn_str : pystr (* str(e) *) }.

Definition is_ImportError (e : exn) : bool :=
  match exn_class e with
  | ImportError | ModuleNotFoundError => true
  | _ => false
  end.

Inductive result (A : Type) :=
| Ok (a : A)
| Raise (e : exn).
Arguments Ok {A} a.
Arguments Raise {A} e.

(** ** A state and exception monad *)

Section Monad.
Context {S : Type}.

Definition M (A : Type) : Type := S -> result A * S.

Definition ret {A} (a : A) : M A := fun s => (Ok a, s).

Definition bind {A B} (m : M A) (f : A -> M B) : M B :=
  fun s =>
    match m s with
    | (Ok a, s') => f a s'
    | (Raise e, s') => (Raise e, s')
    end.

Definition lift {A} (r : result A) : M A := fun s => (r, s).

Definition get : M S := fun s => (Ok s, s).
Definition modify (f : S -> S) : M unit := fun s => (Ok tt, f s).

(** [try: m  except Exception as e: h e] *)
Definition try_except {A} (m : M A) (h : exn -> M A) : M A :=
  fun s =>
    match m s with
    | (Ok a, s') => (Ok a, s')
    | (Raise e, s') => h e s'
    end.

(** [with enter as _: body], for a context manager whose [__exit__]
    returns [None]: the exit runs whether the body raised or not, a
    failure of the body is re-raised after it, and a failure of the exit
    itself replaces it.  A failing [enter] runs neither. *)
Definition with_ {A} (enter exit_ : M unit) (body : M A) : M A :=
  bind enter (fun _ s =>
    match body s with
    | (Ok a, s') => bind exit_ (fun _ => ret a) s'
    | (Raise e, s') => bind exit_ (fun _ => lift (Raise e)) s'
    end).
End Monad.
Arguments M : clear implicits.

Notation "'let*' x ':=' m 'in' k" := (bind m (fun x => k))
  (at level 10, x name, m at level 200, k at level 200).
Notation "m ';;' k" := (bind m (fun _ => k))
  (at level 100, k at level 200, right associativity).

(** ** Data of the quote route *)

Record QuoteRequest := {
  name : pystr;
  email : pystr;
  phone : pystr;
  projectType : pystr;
  postcode : pystr;
  message : pystr
}.

(** [MIMEText(body)] with its three headers. *)
Record MIMEText := {
  Subject : pystr;
  From_ : pystr;
  To : pystr;
  payload_text : pystr
}.

(** The response dictionary [{"status": ..., "id": ...}]. *)
Record QuoteResponse := {
  status : pystr;
  resp_id : option pystr
}.

(** ** Calls to collaborators *)

Inductive event :=
| CreateDocument (collection : pystr) (payload : QuoteRequest)
| SmtpOpen (host : pystr) (port : Z)        (* smtplib.SMTP(host, port) *)
| SmtpStarttls
| SmtpLogin (user password : pystr)
| SmtpSendmail (from_addr : pystr) (to_addrs : list pystr) (msg : MIMEText)
| SmtpExit.                                  (* SMTP.__exit__: QUIT, close *)

Definition is_smtp (ev : event) : bool :=
  match ev with
  | CreateDocument _ _ => false
  | _ => true
  end.

(** The handle [database.db] when it is not [None]. *)
Record Database := {
  db_name : option pystr;                      (* hasattr(db, 'name'), db.name *)
  list_collection_names : result (list pystr)
}.

(** ** The world around [main.py] *)

Record World := {
  environ : gmap pystr pystr;
  (* builtins *)
  int : pystr -> result Z;
  (* database.py *)
  create_document : pystr -> QuoteRequest -> result pystr;
  import_db : result (option Database);        (* from database import db *)
  (* smtplib *)
  smtp_open : pystr -> Z -> result unit;
  smtp_starttls : result unit;
  smtp_login : pystr -> pystr -> result unit;
  smtp_sendmail : pystr -> list pystr -> MIMEText -> result unit;
  smtp_exit : result unit
}.

(** [os.getenv(key)] and [os.getenv(key, default)] *)
Definition getenv (w : World) (key : pystr) : option pystr :=
  environ w !! key.
Definition getenv_or (w : World) (key d : pystr) : pystr :=
  default d (environ w !! key).

Abbreviation trace := (list event).

(** A call: the world decides the outcome, the trace records the call. *)
Definition call {A} (ev : event) (r : result A) : M trace A :=
  fun t => (r, t ++ [ev]).

Definition run {A} (m : M trace A) : result A * trace := m [].

(** ** [POST /api/quote] *)

(** [v or d] for a string or [None]. *)
Definition or_ (v : option pystr) (d : pystr) : pystr :=
  match v with
  | Some (c :: s) => c :: s
  | _ => d
  end.

(** The last line of the body, [f"Record ID: {doc_id or 'not saved'}\n"]. *)
Definition record_id_line (doc_id : option pystr) : pystr :=
  str "Record ID: " ++ or_ doc_id (str "not saved") ++ nl.

Definition quote_body (payload : QuoteRequest) (doc_id : option pystr) : pystr :=
  (str "Name: " ++ name payload ++ nl) ++
  (str "Email: " ++ email payload ++ nl) ++
  (str "Phone: " ++ phone payload ++ nl) ++
  (str "Project Type: " ++ projectType payload ++ nl) ++
  (str "Postcode: " ++ postcode payload ++ nl ++ nl) ++
  (str "Message:" ++ nl ++ message payload ++ nl ++ nl) ++
  record_id_line doc_id.

(** The first [try] block: persist, and on any exception go on without an
    identifier. *)
Definition persist (w : World) (payload : QuoteRequest)
  : M trace (option pystr) :=
  try_except
    (let* doc_id := call (CreateDocument (str "quoterequest") payload)
                         (create_document w (str "quoterequest") payload) in
     ret (Some doc_id))
    (fun _ => ret None).

(** The body of the second [try] block. *)
Definition notify (w : World) (payload : QuoteRequest) (doc_id : option pystr)
  : M trace unit :=
  let recipient :=
    getenv_or w (str "QUOTE_EMAIL_TO") (str "jamesleegrundy@gmail.com") in
  let sender := getenv_or w (str "QUOTE_EMAIL_FROM") (str "no-reply@flames.blue") in
  let subject := str "New Quote Request " ++ en_dash ++ str " James Lee Builders" in
  let body := quote_body payload doc_id in
  let msg := {| Subject := subject; From_ := sender; To := recipient;
                payload_text := body |} in
  let smtp_host := getenv w (str "SMTP_HOST") in
  let* smtp_port := lift (int w (getenv_or w (str "SMTP_PORT") (str "587"))) in
  let smtp_user := getenv w (str "SMTP_USER") in
  let smtp_pass := getenv w (str "SMTP_PASS") in
  if truthy smtp_host && truthy smtp_user && truthy smtp_pass then
    let host := default [] smtp_host in
    let user := default [] smtp_user in
    let pass := default [] smtp_pass in
    with_ (call (SmtpOpen host smtp_port) (smtp_open w host smtp_port))
          (call SmtpExit (smtp_exit w))
      (call SmtpStarttls (smtp_starttls w);;
       call (SmtpLogin user pass) (smtp_login w user pass);;
       call (SmtpSendmail sender [recipient] msg)
            (smtp_sendmail w sender [recipient] msg))
  else
    (* If SMTP not configured, we silently skip emailing. *)
    ret tt.

Definition submit_quote (w : World) (payload : QuoteRequest)
  : M trace QuoteResponse :=
  let* doc_id := persist w payload in
  try_except (notify w payload doc_id) (fun _ => ret tt);;
  ret {| status := str "ok"; resp_id := doc_id |}.

(** What the caller of the route gets: the handler's response, or the
    framework's request-validation error. *)
Inductive http_response :=
| Http_ok (r : QuoteResponse)
| Http_validation_error.

(** Modelled from the spec: the schema [schemas.QuoteRequest] and the
    framework's validation of the request body are not part of [main.py].
    The spec says that the email "must pass address-format validation or
    the request is rejected before reaching the Handler", and that a
    validation failure "produces the framework's standard
    request-validation error response".  The address format itself is the
    validation library's, the argument [address_format]. *)
Definition post_api_quote (address_format : pystr -> bool)
    (w : World) (body : QuoteRequest) : M trace http_response :=
  if address_format (email body) then
    let* r := submit_quote w body in ret (Http_ok r)
  else
    ret Http_validation_error.

(** The class name of the schema, [QuoteRequest.__name__]. *)
Definition QuoteRequest_name : pystr := str "QuoteRequest".

(** The collections that the persistence calls of a trace target. *)
Definition persist_targets (t : trace) : list pystr :=
  omap (fun ev => match ev with
                  | CreateDocument c _ => Some c
                  | _ => None
                  end) t.

(** ** [GET /] and [GET /api/portfolio] *)

Definition read_root : M trace pystr :=
  ret (str "James Lee Builders backend is running").

Record PortfolioItem := {
  item_id : pystr;
  title : pystr;
  thumb : pystr;
  images : list pystr;
  description : pystr
}.

Definition get_portfolio : M trace (list PortfolioItem) :=
  ret [
    {| item_id := str "proj-1";
       title := str "Driveway & Paving " ++ en_dash ++ str " Haslingden";
       thumb := str "/images/driveway1.jpg";
       images := [str "/images/driveway1.jpg"; str "/images/driveway1b.jpg"];
       description := str "Block-paved driveway with drainage and edging." |};
    {| item_id := str "proj-2";
       title := str "Brickwork & Garden Wall " ++ en_dash ++ str " Rawtenstall";
       thumb := str "/images/brickwork1.jpg";
       images := [str "/images/brickwork1.jpg"; str "/images/brickwork1b.jpg"];
       description := str "Reclaimed brick wall with coping stones." |};
    {| item_id := str "proj-3";
       title := str "Roofing Repair " ++ en_dash ++ str " Ramsbottom";
       thumb := str "/images/roof1.jpg";
       images := [str "/images/roof1.jpg"; str "/images/roof1b.jpg"];
       description := str "Slate tile replacement and flashing." |}
  ].

(** ** [GET /test] *)

Record StatusReport := {
  backend : pystr;
  database : pystr;
  database_url : option pystr;
  database_name : option pystr;
  connection_status : pystr;
  collections : list pystr
}.

(** [response[key] = v], key by key. *)
Definition set_database (v : pystr) (r : StatusReport) : StatusReport :=
  {| backend := backend r; database := v; database_url := database_url r;
     database_name := database_name r;
     connection_status := connection_status r; collections := collections r |}.
Definition set_database_url (v : option pystr) (r : StatusReport) : StatusReport :=
  {| backend := backend r; database := database r; database_url := v;
     database_name := database_name r;
     connection_status := connection_status r; collections := collections r |}.
Definition set_database_name (v : option pystr) (r : StatusReport) : StatusReport :=
  {| backend := backend r; database := database r; database_url := database_url r;
     database_name := v;
     connection_status := connection_status r; collections := collections r |}.
Definition set_connection_status (v : pystr) (r : StatusReport) : StatusReport :=
  {| backend := backend r; database := database r; database_url := database_url r;
     database_name := database_name r;
     connection_status := v; collections := collections r |}.
Definition set_collections (v : list pystr) (r : StatusReport) : StatusReport :=
  {| backend := backend r; database := database r; database_url := database_url r;
     database_name := database_name r;
     connection_status := connection_status r; collections := v |}.

Definition initial_response : StatusReport :=
  {| backend := check_mark ++ str " Running";
     database := cross_mark ++ str " Not Available";
     database_url := None;
     database_name := None;
     connection_status := str "Not Connected";
     collections := [] |}.

Definition module_not_found : pystr :=
  cross_mark ++ str " Database module not found (run enable-database first)".

(** The statements after the dictionary is built; the state of the monad is
    the dictionary [response], which the handler updates in place. *)
Definition test_database_steps (w : World) : M StatusReport StatusReport :=
  try_except
    (let* db := lift (import_db w) in
     match db with
     | Some db =>
         modify (set_database (check_mark ++ str " Available"));;
         modify (set_database_url (Some (check_mark ++ str " Configured")));;
         modify (set_database_name
                   (Some (default (check_mark ++ str " Connected") (db_name db))));;
         modify (set_connection_status (str "Connected"));;
         try_except
           (let* collections := lift (list_collection_names db) in
            modify (set_collections (take 10 collections));;
            modify (set_database (check_mark ++ str " Connected & Working")))
           (fun e =>
              modify (set_database
                        (warning_sign ++ str "  Connected but Error: "
                           ++ take 50 (exn_str e))))
     | None =>
         modify (set_database
                   (warning_sign ++ str "  Available but not initialized"))
     end)
    (fun e =>
       if is_ImportError e then modify (set_database module_not_found)
       else modify (set_database
                      (cross_mark ++ str " Error: " ++ take 50 (exn_str e))));;
  modify (set_database_url
            (Some (if truthy (getenv w (str "DATABASE_URL"))
                   then check_mark ++ str " Set"
                   else cross_mark ++ str " Not Set")));;
  modify (set_database_name
            (Some (if truthy (getenv w (str "DATABASE_NAME"))
                   then check_mark ++ str " Set"
                   else cross_mark ++ str " Not Set")));;
  get.

Definition test_database (w : World) : result StatusReport :=
  fst (test_database_steps w initial_response).

(** ** Vocabulary of the statements *)

(** The identifier the handler keeps: the store's, or [None] when the call
    raised. *)
Definition kept_id (r : result pystr) : option pystr :=
  match r with
  | Ok doc_id => Some doc_id
  | Raise _ => None
  end.

(** What the second [try] block adds to the trace. *)
Definition notify_events (w : World) (p : QuoteRequest) (d : option pystr) : trace :=
  snd (notify w p d []).

(** The messages handed to [sendmail]. *)
Definition sent_messages (t : trace) : list MIMEText :=
  omap (fun ev => match ev with
                  | SmtpSendmail _ _ msg => Some msg
                  | _ => None
                  end) t.

(** The world with another environment. *)
Definition with_environ (env : gmap pystr pystr) (w : World) : World :=
  {| environ := env;
     int := int w;
     create_document := create_document w;
     import_db := import_db w;
     smtp_open := smtp_open w;
     smtp_starttls := smtp_starttls w;
     smtp_login := smtp_login w;
     smtp_sendmail := smtp_sendmail w;
     smtp_exit := smtp_exit w |}.

(** The world with none of the three transport settings. *)
Definition unset_smtp (w : World) : World :=
  with_environ
    (delete (str "SMTP_HOST")
       (delete (str "SMTP_USER") (delete (str "SMTP_PASS") (environ w)))) w.


(** The string handed to [int] for the port. *)
Definition port_setting (w : World) : pystr :=
  getenv_or w (str "SMTP_PORT") (str "587").

(** The addresses and the message of a notification, as the environment
    and the request give them. *)
Definition recipient (w : World) : pystr :=
  getenv_or w (str "QUOTE_EMAIL_TO") (str "jamesleegrundy@gmail.com").
Definition sender (w : World) : pystr :=
  getenv_or w (str "QUOTE_EMAIL_FROM") (str "no-reply@flames.blue").
Definition notification (w : World) (p : QuoteRequest) (d : option pystr) : MIMEText :=
  {| Subject := str "New Quote Request " ++ en_dash ++ str " James Lee Builders";
     From_ := sender w;
     To := recipient w;
     payload_text := quote_body p d |}.

(** A string without a line break. *)
Definition single_line (s : pystr) : bool :=
  forallb (fun c => negb (c =? 10)%N) s.

(** The five fields that the body prints on a line each. *)
Definition single_line_fields (p : QuoteRequest) : bool :=
  single_line (name p) && single_line (email p) && single_line (phone p)
    && single_line (projectType p) && single_line (postcode p).

(** ** Sample collaborators

    A decimal [int] for ASCII input (surrounding white space, a sign,
    digits with single underscores between them), an address format that
    asks for one [@] with something on both sides, and worlds built from
    them; they serve as concrete inputs below. *)

Definition is_space (c : N) : bool :=
  ((9 <=? c) && (c <=? 13) || (c =? 32))%N.
Definition is_digit (c : N) : bool := ((48 <=? c) && (c <=? 57))%N.

Fixpoint lstrip (s : pystr) : pystr :=
  match s with
  | c :: s' => if is_space c then lstrip s' else s
  | [] => []
  end.
Definition strip (s : pystr) : pystr := rev (lstrip (rev (lstrip s))).

Fixpoint digits (acc : Z) (after_digit : bool) (s : pystr) : option Z :=
  match s with
  | [] => if after_digit then Some acc else None
  | c :: s' =>
      if is_digit c then digits (10 * acc + (Z.of_N c - 48)) true s'
      else if (c =? 95)%N && after_digit then
        match s' with
        | d :: _ => if is_digit d then digits acc false s' else None
        | [] => None
        end
      else None
  end.

Definition int_ascii (s : pystr) : result Z :=
  let unsigned t :=
    match digits 0 false t with
    | Some z => Ok z
    | None =>
        Raise (Exn ValueError
                 (str "invalid literal for int() with base 10: '" ++ s ++ str "'"))
    end in
  match strip s with
  | 45%N :: t =>
      match unsigned t with Ok z => Ok (- z)%Z | Raise e => Raise e end
  | 43%N :: t => unsigned t
  | t => unsigned t
  end.

Definition one_at_sign (s : pystr) : bool :=
  match filter (fun c => c = 64%N) s with
  | [_] =>
      match s, rev s with
      | c :: _, d :: _ => negb (c =? 64)%N && negb (d =? 64)%N
      | _, _ => false
      end
  | _ => false
  end.

Definition sample_world (env : gmap pystr pystr) (store : result pystr)
    (sendmail : result unit) : World :=
  {| environ := env;
     int := int_ascii;
     create_document := fun _ _ => store;
     import_db := Raise (Exn ModuleNotFoundError (str "No module named 'database'"));
     smtp_open := fun _ _ => Ok tt;
     smtp_starttls := Ok tt;
     smtp_login := fun _ _ => Ok tt;
     smtp_sendmail := fun _ _ _ => sendmail;
     smtp_exit := Ok tt |}.

Definition smtp_env (port : pystr) : gmap pystr pystr :=
  <[str "SMTP_HOST" := str "smtp.example.com"]>
  (<[str "SMTP_USER" := str "builder"]>
  (<[str "SMTP_PASS" := str "secret"]>
  (<[str "SMTP_PORT" := port]> ∅))).

Definition sample_request : QuoteRequest :=
  {| name := str "Ada"; email := str "ada@example.com"; phone := str "01706";
     projectType := str "Roofing"; postcode := str "BB4";
     message := str "Slipped slates" |}.

Definition refused : exn := Exn (OtherException (str "SMTPException")) (str "refused").
Definition store_down : exn := Exn (OtherException (str "Exception")) (str "Database not available").

Definition world_ok : World :=
  sample_world (smtp_env (str "25")) (Ok (str "abc123")) (Ok tt).
Definition world_store_down : World :=
  sample_world (smtp_env (str "25")) (Raise store_down) (Ok tt).
Definition world_no_pass : World :=
  sample_world (delete (str "SMTP_PASS") (smtp_env (str "25")))
    (Ok (str "abc123")) (Ok tt).
Definition world_send_fails : World :=
  sample_world (smtp_env (str "25")) (Ok (str "abc123")) (Raise refused).
Definition world_bad_port : World :=
  sample_world (smtp_env (str "abc")) (Ok (str "abc123")) (Ok tt).
Definition world_db (d : Database) : World :=
  {| environ := <[str "DATABASE_URL" := str "mongodb://localhost"]> ∅;
     int := int_ascii;
     create_document := fun _ _ => Ok (str "abc123");
     import_db := Ok (Some d);
     smtp_open := fun _ _ => Ok tt;
     smtp_starttls := Ok tt;
     smtp_login := fun _ _ => Ok tt;
     smtp_sendmail := fun _ _ _ => Ok tt;
     smtp_exit := Ok tt |}.

Definition twelve_names : list pystr :=
  map (fun c => [c]) [97; 98; 99; 100; 101; 102; 103; 104; 105; 106; 107; 108]%N.

Definition bad_request : QuoteRequest :=
  {| name := str "Ada"; email := str "not-an-email"; phone := str "01706";
     projectType := str "Roofing"; postcode := str "BB4";
     message := str "Slipped slates" |}.
Definition bad_port_error : exn :=
  Exn ValueError (str "invalid literal for int() with base 10: 'abc'").


(** Two requests that differ, with a line break in the name of the first
    and in the email of the second. *)
Definition forged_name : QuoteRequest :=
  {| name := str "Ada" ++ nl ++ str "Email: eve@example.com";
     email := str "ada@example.com"; phone := str "01706";
     projectType := str "Roofing"; postcode := str "BB4";
     message := str "Slipped slates" |}.
Definition forged_email : QuoteRequest :=
  {| name := str "Ada";
     email := str "eve@example.com" ++ nl ++ str "Email: ada@example.com";
     phone := str "01706";
     projectType := str "Roofing"; postcode := str "BB4";
     message := str "Slipped slates" |}.

Example int_ascii_587 : int_ascii (str "587") = Ok 587%Z.
Proof. reflexivity. Qed.
Example int_ascii_spaces : int_ascii (str " -2_5 ") = Ok (-25)%Z.
Proof. reflexivity. Qed.
Example int_ascii_abc : exists e, int_ascii (str "abc") = Raise e.
Proof. eexists; reflexivity. Qed.
Example one_at_sign_examples :
  one_at_sign (str "ada@example.com") = true /\
  one_at_sign (str "not-an-email") = false.
Proof. split; reflexivity. Qed.

Example run_configured :
  run (submit_quote world_ok sample_request)
  = (Ok {| status := str "ok"; resp_id := Some (str "abc123") |},
     [CreateDocument (str "quoterequest") sample_request;
      SmtpOpen (str "smtp.example.com") 25;
      SmtpStarttls;
      SmtpLogin (str "builder") (str "secret");
      SmtpSendmail (str "no-reply@flames.blue") [str "jamesleegrundy@gmail.com"]
        {| Subject := str "New Quote Request " ++ en_dash ++ str " James Lee Builders";
           From_ := str "no-reply@flames.blue";
           To := str "jamesleegrundy@gmail.com";
           payload_text := quote_body sample_request (Some (str "abc123")) |};
      SmtpExit]).
Proof. vm_compute. reflexivity. Qed.

(** * Properties *)

(** ** The monad and the two [try] blocks *)

Ltac unfold_monad :=
  unfold run, with_, try_except, bind, call, lift, ret, modify, get in *.

(** Case analysis on every outcome the world decides. *)
Ltac outcomes :=
  repeat (cbv beta iota zeta;
          match goal with
          | |- context [match ?r with Ok _ => _ | Raise _ => _ end] =>
              destruct r eqn:?
          | |- context [if ?b then _ else _] => destruct b eqn:?
          end);
  cbv beta iota zeta.

Lemma persist_spec w p t :
  persist w p t =
  (Ok (kept_id (create_document w (str "quoterequest") p)),
   t ++ [CreateDocument (str "quoterequest") p]).
Proof.
  unfold persist. unfold_monad.
  destruct (create_document w (str "quoterequest") p); reflexivity.
Qed.

(** The notification block only appends to the trace. *)
Lemma notify_frame w p d t :
  notify w p d t = (fst (notify w p d []), t ++ snd (notify w p d [])).
Proof.
  unfold notify. unfold_monad.
  outcomes; simpl fst; simpl snd; rewrite <- ?app_assoc, ?app_nil_r; reflexivity.
Qed.

Lemma submit_quote_spec w p :
  run (submit_quote w p) =
  (Ok {| status := str "ok";
         resp_id := kept_id (create_document w (str "quoterequest") p) |},
   CreateDocument (str "quoterequest") p
     :: notify_events w p (kept_id (create_document w (str "quoterequest") p))).
Proof.
  unfold run, submit_quote, notify_events.
  unfold bind at 1. rewrite persist_spec.
  unfold bind, try_except, ret.
  rewrite notify_frame.
  destruct (fst (notify w p _ [])); reflexivity.
Qed.

(** Without the three settings, or with a port that does not convert, the
    block does nothing that the world can see. *)
Lemma notify_unconfigured w p d :
  truthy (getenv w (str "SMTP_HOST")) && truthy (getenv w (str "SMTP_USER"))
    && truthy (getenv w (str "SMTP_PASS")) = false ->
  notify_events w p d = [].
Proof.
  intros H. unfold notify_events, notify. unfold_monad.
  rewrite H. destruct (int w _); reflexivity.
Qed.

Lemma notify_bad_port w p d e :
  int w (getenv_or w (str "SMTP_PORT") (str "587")) = Raise e ->
  notify_events w p d = [].
Proof.
  intros H. unfold notify_events, notify. unfold_monad.
  rewrite H. reflexivity.
Qed.

(** ** The quote route *)

(** C1. For every validated request and every world, [submit_quote]
    returns (it does not raise) the response with status "ok" and the
    identifier the store gave, or [None] when the store raised; what the
    notification step does has no part in it. *)
Theorem submit_quote_always_ok (w : World) (p : QuoteRequest) :
  fst (run (submit_quote w p)) =
  Ok {| status := str "ok";
        resp_id := kept_id (create_document w (str "quoterequest") p) |}.
Proof. rewrite submit_quote_spec. reflexivity. Qed.

(** C2. If [create_document] raises, whatever the exception, the handler
    swallows it: the identifier is [None], the notification step runs next
    (with that absent identifier), and the response carries [None]. *)
Theorem persistence_failure_swallowed (w : World) (p : QuoteRequest) (e : exn) :
  create_document w (str "quoterequest") p = Raise e ->
  run (submit_quote w p) =
  (Ok {| status := str "ok"; resp_id := None |},
   CreateDocument (str "quoterequest") p :: notify_events w p None).
Proof. intros H. rewrite submit_quote_spec, H. reflexivity. Qed.

Lemma persistence_failure_swallowed_witness :
  create_document world_store_down (str "quoterequest") sample_request
    = Raise store_down /\
  run (submit_quote world_store_down sample_request) =
  (Ok {| status := str "ok"; resp_id := None |},
   CreateDocument (str "quoterequest") sample_request
     :: notify_events world_store_down sample_request None).
Proof.
  split; [reflexivity|].
  apply (persistence_failure_swallowed world_store_down sample_request store_down).
  reflexivity.
Defined.

Lemma getenv_unset_smtp w :
  getenv (unset_smtp w) (str "SMTP_HOST") = None.
Proof. unfold getenv, unset_smtp; simpl. apply lookup_delete_eq. Qed.

(** C3. If one of SMTP_HOST, SMTP_USER, SMTP_PASS is unset or empty, the
    only call the handler makes is the persistence call (the transport is
    never invoked), the response is the usual one with status "ok", and
    the run is the same as with all three unset. *)
Theorem no_send_without_full_configuration (w : World) (p : QuoteRequest) :
  truthy (getenv w (str "SMTP_HOST")) = false \/
  truthy (getenv w (str "SMTP_USER")) = false \/
  truthy (getenv w (str "SMTP_PASS")) = false ->
  run (submit_quote w p) =
    (Ok {| status := str "ok";
           resp_id := kept_id (create_document w (str "quoterequest") p) |},
     [CreateDocument (str "quoterequest") p]) /\
  filter (fun ev => is_smtp ev = true) (snd (run (submit_quote w p))) = [] /\
  run (submit_quote w p) = run (submit_quote (unset_smtp w) p).
Proof.
  intros H.
  assert (Hw : notify_events w p
                 (kept_id (create_document w (str "quoterequest") p)) = []).
  { apply notify_unconfigured.
    destruct H as [H|[H|H]]; rewrite H; rewrite ?andb_false_r; reflexivity. }
  assert (Hu : notify_events (unset_smtp w) p
                 (kept_id (create_document w (str "quoterequest") p)) = []).
  { apply notify_unconfigured. rewrite getenv_unset_smtp. reflexivity. }
  rewrite !submit_quote_spec, Hw. simpl create_document. rewrite Hu.
  repeat split.
Qed.

Lemma no_send_without_full_configuration_witness :
  truthy (getenv world_no_pass (str "SMTP_PASS")) = false /\
  run (submit_quote world_no_pass sample_request) =
    (Ok {| status := str "ok"; resp_id := Some (str "abc123") |},
     [CreateDocument (str "quoterequest") sample_request]).
Proof.
  split; [vm_compute; reflexivity|].
  refine (proj1 (no_send_without_full_configuration world_no_pass sample_request _)).
  right; right; vm_compute; reflexivity.
Defined.

(** C4. Two runs on the same request whose persistence calls have the same
    outcome give the same response, whatever the transport does in either:
    in particular a send that raises and a send that succeeds, under a full
    configuration, are indistinguishable in the response. *)
Theorem send_outcome_not_observable (w1 w2 : World) (p : QuoteRequest) :
  create_document w1 (str "quoterequest") p
    = create_document w2 (str "quoterequest") p ->
  fst (run (submit_quote w1 p)) = fst (run (submit_quote w2 p)).
Proof. intros H. rewrite !submit_quote_spec, H. reflexivity. Qed.

Lemma send_outcome_not_observable_witness :
  create_document world_send_fails (str "quoterequest") sample_request
    = create_document world_ok (str "quoterequest") sample_request /\
  length (sent_messages (snd (run (submit_quote world_send_fails sample_request)))) = 1 /\
  length (sent_messages (snd (run (submit_quote world_ok sample_request)))) = 1 /\
  fst (run (submit_quote world_send_fails sample_request))
    = fst (run (submit_quote world_ok sample_request)).
Proof.
  split; [reflexivity|].
  split; [vm_compute; reflexivity|].
  split; [vm_compute; reflexivity|].
  apply (send_outcome_not_observable world_send_fails world_ok sample_request).
  reflexivity.
Defined.

(** C10. If SMTP_PORT is set to a string on which [int] raises, the
    notification block is left before the transport is touched: the only
    call is the persistence call, also when host, user and credential are
    all set, and the response is status "ok" with the identifier kept from
    persistence. *)
Theorem bad_port_skips_send (w : World) (p : QuoteRequest) (port : pystr) (e : exn) :
  getenv w (str "SMTP_PORT") = Some port ->
  int w port = Raise e ->
  run (submit_quote w p) =
  (Ok {| status := str "ok";
         resp_id := kept_id (create_document w (str "quoterequest") p) |},
   [CreateDocument (str "quoterequest") p]).
Proof.
  intros Hport Hint. rewrite submit_quote_spec.
  rewrite (notify_bad_port w p _ e); [reflexivity|].
  unfold getenv_or. unfold getenv in Hport. rewrite Hport. exact Hint.
Qed.

Lemma bad_port_skips_send_witness :
  getenv world_bad_port (str "SMTP_PORT") = Some (str "abc") /\
  int world_bad_port (str "abc") = Raise bad_port_error /\
  truthy (getenv world_bad_port (str "SMTP_HOST"))
    && truthy (getenv world_bad_port (str "SMTP_USER"))
    && truthy (getenv world_bad_port (str "SMTP_PASS")) = true /\
  run (submit_quote world_bad_port sample_request) =
  (Ok {| status := str "ok"; resp_id := Some (str "abc123") |},
   [CreateDocument (str "quoterequest") sample_request]).
Proof.
  split; [vm_compute; reflexivity|].
  split; [vm_compute; reflexivity|].
  split; [vm_compute; reflexivity|].
  apply (bad_port_skips_send world_bad_port sample_request (str "abc") bad_port_error);
    vm_compute; reflexivity.
Defined.

Lemma notify_sends_body w p d :
  Forall (fun msg => payload_text msg = quote_body p d)
         (sent_messages (notify_events w p d)).
Proof.
  unfold notify_events, notify. unfold_monad.
  outcomes; simpl; repeat constructor.
Qed.

Lemma notify_never_persists w p d :
  persist_targets (notify_events w p d) = [].
Proof.
  unfold notify_events, notify. unfold_monad.
  outcomes; reflexivity.
Qed.

(** C5. The body that the handler builds, and hands to every [sendmail] it
    attempts, ends with the line [Record ID: x] where [x] is never empty:
    it is the identifier the store returned, or the marker "not saved" when
    the store raised (or returned an empty identifier). *)
Theorem record_id_is_identifier_or_marker (w : World) (p : QuoteRequest) :
  Forall (fun msg =>
            payload_text msg =
            quote_body p (kept_id (create_document w (str "quoterequest") p)))
         (sent_messages (snd (run (submit_quote w p)))) /\
  exists pre x,
    quote_body p (kept_id (create_document w (str "quoterequest") p))
      = pre ++ str "Record ID: " ++ x ++ nl /\
    x <> [] /\
    match create_document w (str "quoterequest") p with
    | Ok doc_id => x = doc_id \/ (doc_id = [] /\ x = str "not saved")
    | Raise _ => x = str "not saved"
    end.
Proof.
  split.
  - rewrite submit_quote_spec. simpl snd. apply notify_sends_body.
  - exists ((str "Name: " ++ name p ++ nl) ++
            (str "Email: " ++ email p ++ nl) ++
            (str "Phone: " ++ phone p ++ nl) ++
            (str "Project Type: " ++ projectType p ++ nl) ++
            (str "Postcode: " ++ postcode p ++ nl ++ nl) ++
            (str "Message:" ++ nl ++ message p ++ nl ++ nl)).
    exists (or_ (kept_id (create_document w (str "quoterequest") p))
                (str "not saved")).
    split; [unfold quote_body, record_id_line; rewrite <- !app_assoc; reflexivity|].
    destruct (create_document w (str "quoterequest") p) as [[|c i]|e];
      simpl kept_id; unfold or_.
    + split; [intros H; vm_compute in H; discriminate | right; done].
    + split; [discriminate | left; done].
    + split; [intros H; vm_compute in H; discriminate | done].
Qed.

(** C6. The one persistence call of a run targets the collection
    "quoterequest", whatever the request and the world; the name is the
    schema's class name in lower case. *)
Theorem collection_is_fixed (w : World) (p : QuoteRequest) :
  persist_targets (snd (run (submit_quote w p))) = [str "quoterequest"] /\
  str "quoterequest" = lower QuoteRequest_name /\
  lower (str "quoterequest") = str "quoterequest".
Proof.
  rewrite submit_quote_spec. simpl snd.
  change (persist_targets (?e :: ?t)) with (str "quoterequest" :: persist_targets t).
  rewrite notify_never_persists. repeat split.
Qed.

(** C9. A request whose email does not pass the address format gets the
    validation error and the handler body does not run: no persistence
    call, no transport call. *)
Theorem invalid_email_never_reaches_handler
    (address_format : pystr -> bool) (w : World) (body : QuoteRequest) :
  address_format (email body) = false ->
  run (post_api_quote address_format w body) = (Ok Http_validation_error, []).
Proof. intros H. unfold run, post_api_quote. rewrite H. reflexivity. Qed.

Lemma invalid_email_never_reaches_handler_witness :
  one_at_sign (email bad_request) = false /\
  run (post_api_quote one_at_sign world_ok bad_request)
    = (Ok Http_validation_error, []).
Proof.
  split; [reflexivity|].
  apply (invalid_email_never_reaches_handler one_at_sign world_ok bad_request).
  reflexivity.
Defined.

(** ** The portfolio *)

(** C7. [get_portfolio] returns, from any state and without touching it,
    the same list of three items, with ids proj-1, proj-2, proj-3 in this
    order; it never raises. *)
Theorem portfolio_is_constant (t : trace) :
  exists a b c,
    get_portfolio t = (Ok [a; b; c], t) /\
    fst (run get_portfolio) = Ok [a; b; c] /\
    item_id a = str "proj-1" /\ item_id b = str "proj-2" /\
    item_id c = str "proj-3".
Proof. do 3 eexists. repeat split. Qed.

(** ** The diagnostics route *)

(** C8. [test_database] returns a report in every world, it never raises.
    When importing the store module raises [ImportError], the [database]
    field is the "module not found" text and [collections] is empty.  When
    the collections are enumerated, the report lists the first ten names at
    most.  When the enumeration raises after the handle was obtained, the
    report says "Connected" and a warning text, which does not start with
    the cross mark that every full failure starts with. *)
Theorem test_database_never_raises (w : World) :
  exists r,
    test_database w = Ok r /\
    length (collections r) <= 10 /\
    match import_db w with
    | Raise e =>
        collections r = [] /\
        connection_status r = str "Not Connected" /\
        is_prefix cross_mark (database r) = true /\
        if is_ImportError e then
          database r = module_not_found /\
          contains (str "module not found") (database r) = true
        else
          database r = cross_mark ++ str " Error: " ++ take 50 (exn_str e)
    | Ok None =>
        collections r = [] /\
        connection_status r = str "Not Connected" /\
        database r = warning_sign ++ str "  Available but not initialized"
    | Ok (Some db) =>
        connection_status r = str "Connected" /\
        match list_collection_names db with
        | Ok names =>
            collections r = take 10 names /\
            database r = check_mark ++ str " Connected & Working"
        | Raise e =>
            collections r = [] /\
            database r = warning_sign ++ str "  Connected but Error: "
                           ++ take 50 (exn_str e) /\
            is_prefix cross_mark (database r) = false
        end
    end.
Proof.
  unfold test_database, test_database_steps. unfold_monad.
  destruct (import_db w) as [[db|]|e].
  - destruct (list_collection_names db) as [names|e];
      eexists; (split; [reflexivity|]); simpl collections.
    + split; [rewrite length_take; lia | repeat split].
    + split; [simpl; lia | repeat split].
  - eexists; (split; [reflexivity|]); simpl collections.
    split; [simpl; lia | repeat split].
  - destruct (is_ImportError e);
      eexists; (split; [reflexivity|]); simpl collections;
      (split; [simpl; lia | repeat split]).
Qed.

Example test_database_lists_ten :
  test_database (world_db {| db_name := Some (str "site");
                             list_collection_names := Ok twelve_names |})
  = Ok {| backend := check_mark ++ str " Running";
          database := check_mark ++ str " Connected & Working";
          database_url := Some (check_mark ++ str " Set");
          database_name := Some (cross_mark ++ str " Not Set");
          connection_status := str "Connected";
          collections := take 10 twelve_names |}.
Proof. vm_compute. reflexivity. Qed.

Example test_database_module_missing :
  test_database world_ok
  = Ok {| backend := check_mark ++ str " Running";
          database := module_not_found;
          database_url := Some (cross_mark ++ str " Not Set");
          database_name := Some (cross_mark ++ str " Not Set");
          connection_status := str "Not Connected";
          collections := [] |}.
Proof. vm_compute. reflexivity. Qed.

(** * Further properties of the handlers *)

(** ** Which calls a quote request makes, and in which order *)

(** Every case of the notification block, with the trace it leaves. *)
Ltac notify_cases :=
  rewrite ?submit_quote_spec; simpl snd;
  unfold notify_events, notify; unfold_monad; outcomes; simpl snd;
  repeat match goal with u : unit |- _ => destruct u end.

Ltac in_trace := vm_compute; repeat (first [left; reflexivity | right]).

Lemma truthy_Some (v : option pystr) :
  truthy v = true -> exists c s, v = Some (c :: s).
Proof. destruct v as [[|c s]|]; simpl; intros; try discriminate; eauto. Qed.

Lemma configured_inv w :
  truthy (getenv w (str "SMTP_HOST")) && truthy (getenv w (str "SMTP_USER"))
    && truthy (getenv w (str "SMTP_PASS")) = true ->
  truthy (getenv w (str "SMTP_HOST")) = true /\
  truthy (getenv w (str "SMTP_USER")) = true /\
  truthy (getenv w (str "SMTP_PASS")) = true.
Proof. rewrite !andb_true_iff. tauto. Qed.


(** X1. Every run starts with the one persistence call, made with the
    request as it came in; whatever follows is a call to the transport.
    The store is not called a second time, also after a failure. *)
Theorem persistence_first_and_once (w : World) (p : QuoteRequest) :
  exists rest,
    snd (run (submit_quote w p)) = CreateDocument (str "quoterequest") p :: rest /\
    Forall (fun ev => is_smtp ev = true) rest.
Proof.
  notify_cases; eexists; (split; [reflexivity|]); repeat constructor.
Qed.




(** X3. A connection is opened to the host that SMTP_HOST names, which is
    not empty, on the port that [int] gives for the port setting. *)
Theorem smtp_open_parameters (w : World) (p : QuoteRequest) (host : pystr) (port : Z) :
  In (SmtpOpen host port) (snd (run (submit_quote w p))) ->
  getenv w (str "SMTP_HOST") = Some host /\
  host <> [] /\
  int w (port_setting w) = Ok port.
Proof.
  notify_cases; simpl; intros H.
  all: repeat match goal with H : _ \/ _ |- _ => destruct H end.
  all: try discriminate; try contradiction.
  all: match goal with H : SmtpOpen _ _ = SmtpOpen _ _ |- _ =>
                 injection H as <- <- end.
  all: match goal with H : _ && _ = true |- _ =>
         apply configured_inv in H as ((? & ? & Hh)%truthy_Some & _) end.
  all: rewrite Hh; simpl; repeat split; try discriminate; assumption.
Qed.


Lemma smtp_open_parameters_witness :
  In (SmtpOpen (str "smtp.example.com") 25)
     (snd (run (submit_quote world_ok sample_request))) /\
  getenv world_ok (str "SMTP_HOST") = Some (str "smtp.example.com") /\
  str "smtp.example.com" <> [] /\
  int world_ok (port_setting world_ok) = Ok 25%Z.
Proof.
  split; [in_trace|].
  apply (smtp_open_parameters world_ok sample_request (str "smtp.example.com") 25).
  in_trace.
Defined.






(** X5. The connection is closed exactly when it was opened with success,
    whichever later step fails, and closing it is the last call of the
    run. *)
Theorem smtp_connection_always_closed (w : World) (p : QuoteRequest) :
  (In SmtpExit (snd (run (submit_quote w p))) <->
   exists host port, In (SmtpOpen host port) (snd (run (submit_quote w p))) /\
                     smtp_open w host port = Ok tt) /\
  (In SmtpExit (snd (run (submit_quote w p))) ->
   last (snd (run (submit_quote w p))) = Some SmtpExit).
Proof.
  notify_cases.
  all: split; [split | ]; simpl; intros H.
  all: try (destruct H as (h & pt & H & Ho); simpl in H).
  all: repeat match goal with H : _ \/ _ |- _ => destruct H end.
  all: try discriminate; try contradiction; try reflexivity.
  all: try match goal with H : SmtpOpen _ _ = SmtpOpen _ _ |- _ =>
                     injection H as <- <- end.
  all: try congruence.
  all: try (do 2 eexists; split; [right; left; reflexivity | eassumption]).
  all: tauto.
Qed.


(** X6. A login is attempted only after [starttls] has succeeded, as the
    call right after it, and with the values of SMTP_USER and SMTP_PASS:
    the credential does not leave before the connection is encrypted. *)
Theorem login_only_after_starttls (w : World) (p : QuoteRequest) (user pw : pystr) :
  In (SmtpLogin user pw) (snd (run (submit_quote w p))) ->
  smtp_starttls w = Ok tt /\
  getenv w (str "SMTP_USER") = Some user /\
  getenv w (str "SMTP_PASS") = Some pw /\
  exists before after,
    snd (run (submit_quote w p))
      = before ++ SmtpStarttls :: SmtpLogin user pw :: after.
Proof.
  notify_cases; simpl; intros H.
  all: repeat match goal with H : _ \/ _ |- _ => destruct H end.
  all: try discriminate; try contradiction.
  all: match goal with H : SmtpLogin _ _ = SmtpLogin _ _ |- _ =>
                 injection H as <- <- end.
  all: match goal with H : _ && _ = true |- _ =>
         apply configured_inv in H as (_ & (? & ? & ->)%truthy_Some
                                         & (? & ? & ->)%truthy_Some) end.
  all: repeat split; try reflexivity.
  all: eexists [_; _], _; reflexivity.
Qed.


Lemma login_only_after_starttls_witness :
  In (SmtpLogin (str "builder") (str "secret"))
     (snd (run (submit_quote world_send_fails sample_request))) /\
  smtp_starttls world_send_fails = Ok tt.
Proof.
  split; [in_trace|].
  refine (proj1 (login_only_after_starttls world_send_fails sample_request
                   (str "builder") (str "secret") _)).
  in_trace.
Defined.


(** X7. A message is handed to [sendmail] only after [starttls] and the
    login with SMTP_USER and SMTP_PASS have both succeeded. *)
Theorem sendmail_only_after_login (w : World) (p : QuoteRequest)
    (from_addr : pystr) (to_addrs : list pystr) (msg : MIMEText) :
  In (SmtpSendmail from_addr to_addrs msg) (snd (run (submit_quote w p))) ->
  smtp_starttls w = Ok tt /\
  exists user pw,
    getenv w (str "SMTP_USER") = Some user /\
    getenv w (str "SMTP_PASS") = Some pw /\
    smtp_login w user pw = Ok tt /\
    In (SmtpLogin user pw) (snd (run (submit_quote w p))).
Proof.
  notify_cases; simpl; intros H.
  all: repeat match goal with H : _ \/ _ |- _ => destruct H end.
  all: try discriminate; try contradiction.
  all: match goal with H : _ && _ = true |- _ =>
         apply configured_inv in H as (_ & (? & ? & Hu)%truthy_Some
                                         & (? & ? & Hp)%truthy_Some) end.
  all: rewrite Hu, Hp in *; unfold default in *; simpl from_option in *.
  all: split; [assumption || tauto|].
  all: do 2 eexists; repeat split; try eassumption; tauto.
Qed.


Lemma sendmail_only_after_login_witness :
  In (SmtpSendmail (sender world_send_fails) [recipient world_send_fails]
        (notification world_send_fails sample_request (Some (str "abc123"))))
     (snd (run (submit_quote world_send_fails sample_request))) /\
  smtp_starttls world_send_fails = Ok tt.
Proof.
  split; [in_trace|].
  refine (proj1 (sendmail_only_after_login world_send_fails sample_request
                   (sender world_send_fails) [recipient world_send_fails]
                   (notification world_send_fails sample_request
                      (Some (str "abc123"))) _)).
  in_trace.
Defined.


(** X8. At most one message is sent per request.  Its envelope sender and
    its one recipient come from the environment (QUOTE_EMAIL_FROM,
    QUOTE_EMAIL_TO, or their defaults) and match the From and To headers;
    the subject is fixed; the request only reaches the body. *)
Theorem notification_addressing (w : World) (p : QuoteRequest) :
  Forall (fun ev =>
            match ev with
            | SmtpSendmail from_addr to_addrs msg =>
                from_addr = sender w /\ to_addrs = [recipient w] /\
                msg = notification w p
                        (kept_id (create_document w (str "quoterequest") p))
            | _ => True
            end)
         (snd (run (submit_quote w p))) /\
  length (sent_messages (snd (run (submit_quote w p)))) <= 1.
Proof.
  notify_cases; split; simpl; try lia.
  all: repeat constructor.
Qed.






(** ** Reading the body back *)

Lemma single_line_cons c s :
  single_line (c :: s) = true -> c <> 10%N /\ single_line s = true.
Proof.
  unfold single_line; simpl. rewrite andb_true_iff, negb_true_iff, N.eqb_neq.
  tauto.
Qed.

Lemma single_line_app a b :
  single_line a = true -> single_line b = true -> single_line (a ++ b) = true.
Proof. unfold single_line. rewrite forallb_app. intros -> ->. reflexivity. Qed.

Lemma single_line_rev a : single_line a = true -> single_line (rev a) = true.
Proof.
  unfold single_line. rewrite !forallb_forall. intros H c Hc.
  apply H. apply in_rev. exact Hc.
Qed.

(** A line ends at the first line break. *)
Lemma split_line a a' r r' :
  single_line a = true -> single_line a' = true ->
  a ++ nl ++ r = a' ++ nl ++ r' -> a = a' /\ r = r'.
Proof.
  revert a'. induction a as [|c a IH]; intros [|c' a'] Ha Ha' H; simpl in H.
  - injection H as ->. done.
  - injection H as <- _. apply single_line_cons in Ha' as [? _]. done.
  - injection H as -> _. apply single_line_cons in Ha as [? _]. done.
  - injection H as -> H.
    apply single_line_cons in Ha as [_ Ha]. apply single_line_cons in Ha' as [_ Ha'].
    destruct (IH a' Ha Ha' H) as [-> ->]. done.
Qed.

(** The last line starts after the last line break but one. *)
Lemma split_last_line (label m m' x x' : pystr) :
  single_line label = true -> single_line x = true -> single_line x' = true ->
  m ++ nl ++ label ++ x ++ nl = m' ++ nl ++ label ++ x' ++ nl ->
  m = m' /\ x = x'.
Proof.
  intros Hl Hx Hx' H. apply (f_equal (@rev N)) in H.
  rewrite !rev_app_distr in H. change (rev nl) with nl in H.
  rewrite <- !app_assoc in H. apply app_inv_head in H.
  rewrite !(app_assoc (rev _) (rev label)) in H.
  apply split_line in H as [H1 H2];
    [| apply single_line_app; apply single_line_rev; assumption ..].
  apply app_inv_tail in H1.
  split.
  - apply (f_equal (@rev N)) in H2. rewrite !rev_involutive in H2. exact H2.
  - apply (f_equal (@rev N)) in H1. rewrite !rev_involutive in H1. exact H1.
Qed.


(** X10. The body determines the request: if the five one-line fields
    (name, email, phone, project type, postcode) and the printed
    identifiers hold no line break, two equal bodies come from equal
    requests and print the same identifier.  The message may hold line
    breaks. *)
Theorem quote_body_injective (p1 p2 : QuoteRequest) (d1 d2 : option pystr) :
  single_line_fields p1 = true -> single_line_fields p2 = true ->
  single_line (or_ d1 (str "not saved")) = true ->
  single_line (or_ d2 (str "not saved")) = true ->
  quote_body p1 d1 = quote_body p2 d2 ->
  p1 = p2 /\ or_ d1 (str "not saved") = or_ d2 (str "not saved").
Proof.
  unfold single_line_fields. rewrite !andb_true_iff.
  intros ((((N1 & E1) & P1) & T1) & C1) ((((N2 & E2) & P2) & T2) & C2) I1 I2 H.
  unfold quote_body, record_id_line in H. rewrite <- !app_assoc in H.
  apply app_inv_head in H. apply split_line in H as [Hn H]; [|assumption..].
  apply app_inv_head in H. apply split_line in H as [He H]; [|assumption..].
  apply app_inv_head in H. apply split_line in H as [Hp H]; [|assumption..].
  apply app_inv_head in H. apply split_line in H as [Ht H]; [|assumption..].
  apply app_inv_head in H. apply split_line in H as [Hc H]; [|assumption..].
  do 3 apply app_inv_head in H.
  rewrite !(app_assoc (message _) nl) in H.
  apply (split_last_line (str "Record ID: ")) in H as [Hm Hi];
    [| reflexivity | assumption ..].
  apply app_inv_tail in Hm.
  split; [|exact Hi].
  destruct p1, p2; simpl in *; congruence.
Qed.


Lemma quote_body_injective_witness :
  single_line_fields sample_request = true /\
  quote_body sample_request None
    = quote_body sample_request (Some (str "not saved")) /\
  or_ None (str "not saved") = or_ (Some (str "not saved")) (str "not saved").
Proof.
  split; [reflexivity|]. split; [reflexivity|].
  refine (proj2 (quote_body_injective sample_request sample_request
                   None (Some (str "not saved")) _ _ _ _ _)); reflexivity.
Defined.


(** X11. The condition of X10 is needed: a line break in a field makes the
    body ambiguous.  The two requests [forged_name] and [forged_email]
    differ and give the same body, whatever the identifier. *)
Theorem quote_body_ambiguous_with_line_breaks :
  forged_name <> forged_email /\
  single_line_fields forged_name = false /\
  single_line_fields forged_email = false /\
  forall d, quote_body forged_name d = quote_body forged_email d.
Proof.
  split; [intros H; apply (f_equal name) in H; vm_compute in H; discriminate H|].
  split; [reflexivity|]. split; [reflexivity|].
  intros d. unfold quote_body, forged_name, forged_email; simpl name; simpl email.
  rewrite <- !app_assoc. reflexivity.
Qed.


(** ** More on the diagnostics route *)

Ltac report_cases w :=
  unfold test_database, test_database_steps; unfold_monad;
  destruct (import_db w) as [[db|]|e];
    [destruct (list_collection_names db) as [names|e] eqn:? | |
     destruct (is_ImportError e) eqn:?];
  eexists; (split; [reflexivity|]).


(** X12. The fields [database_url] and [database_name] of the report say
    only whether DATABASE_URL and DATABASE_NAME are set to a non-empty
    value; what the connected branch wrote there before ("Configured",
    the name of the database) never reaches the report.  [backend] is
    always the running text. *)
Theorem environment_fields_from_environment_only (w : World) :
  exists r,
    test_database w = Ok r /\
    backend r = check_mark ++ str " Running" /\
    database_url r =
      Some (if truthy (getenv w (str "DATABASE_URL"))
            then check_mark ++ str " Set" else cross_mark ++ str " Not Set") /\
    database_name r =
      Some (if truthy (getenv w (str "DATABASE_NAME"))
            then check_mark ++ str " Set" else cross_mark ++ str " Not Set").
Proof. report_cases w; repeat split. Qed.


(** X13. The report says "Connected & Working" exactly when the store
    handle is there and the enumeration of the collections succeeded. *)
Theorem working_reported_iff_enumerated (w : World) :
  exists r,
    test_database w = Ok r /\
    (database r = check_mark ++ str " Connected & Working" <->
     exists db names,
       import_db w = Ok (Some db) /\ list_collection_names db = Ok names).
Proof.
  report_cases w; simpl database;
    (split; [intros H | intros (db' & names' & H1 & H2)]).
  all: try reflexivity.
  all: try (cbv in H; discriminate H).
  all: try (injection H1 as <-); try congruence.
  eauto.
Qed.


(** X14. [connection_status] is "Connected" exactly when the store module
    gave a handle, also when the enumeration then failed. *)
Theorem connected_iff_handle (w : World) :
  exists r,
    test_database w = Ok r /\
    (connection_status r = str "Connected" <->
     exists db, import_db w = Ok (Some db)).
Proof.
  report_cases w; simpl connection_status;
    (split; [intros H | intros (db' & H1)]).
  all: try reflexivity.
  all: try (cbv in H; discriminate H).
  all: try congruence.
  all: eauto.
Qed.


(** X15. The [database] text is never empty and never longer than 75
    characters, however long the message of the exception is. *)
Theorem database_text_bounded (w : World) :
  exists r, test_database w = Ok r /\ 0 < length (database r) <= 75.
Proof.
  report_cases w; simpl database; simpl length; rewrite ?length_take;
    try (vm_compute; lia); lia.
Qed.


(** X16. The text "Not Available" the report starts from, and the text
    "Available" of the connected branch, are overwritten on every path:
    no report carries them. *)
Theorem initial_texts_never_reported (w : World) :
  exists r,
    test_database w = Ok r /\
    database r <> cross_mark ++ str " Not Available" /\
    database r <> check_mark ++ str " Available".
Proof.
  report_cases w; simpl database; split; intros H; cbv in H; discriminate H.
Qed.


(** ** More on the portfolio *)


(** X17. The ids of the portfolio items are pairwise distinct; every item
    has two images under /images/, and its thumbnail is the first of
    them. *)
Theorem portfolio_items_well_formed :
  exists items,
    fst (run get_portfolio) = Ok items /\
    List.NoDup (map item_id items) /\
    Forall (fun it => head (images it) = Some (thumb it) /\
                      length (images it) = 2 /\
                      is_prefix (str "/images/") (thumb it) = true /\
                      forallb (is_prefix (str "/images/")) (images it) = true)
           items.
Proof.
  eexists. split; [reflexivity|]. split.
  - vm_compute. repeat constructor; simpl; intuition discriminate.
  - repeat constructor.
Qed.
